(** * pajarori.pwn: terminal selection and launch dispatch

    A shallow embedding of [src/lib/python/src/pajarori/pwn.py].  The module
    is a thin layer over an exploitation library: [get_terminal] walks a
    static priority list of terminal programs, [ELF] loads a binary and tags
    it as the current one, [start] picks one of three launch primitives.

    The library itself is not part of the module.  It appears here as an
    interface ([PwnLib]) whose primitives act on a world of their own and
    either return a handle or raise. *)

From Stdlib Require Import ZArith.
From stdpp Require Import gmap strings list fin_maps.

Local Open Scope string_scope.

(** ** Python values and truthiness *)

(** The values that reach a truth test in the module: the result of
    [os.environ.get], of [shutil.which(..) is not None], and whatever a
    caller passes as the [gdbscript] keyword. *)
Inductive PyVal : Type :=
  | VNone
  | VBool (b : bool)
  | VInt (z : Z)
  | VStr (s : string).

Definition truthy (v : PyVal) : bool :=
  match v with
  | VNone => false
  | VBool b => b
  | VInt z => negb (Z.eqb z 0)
  | VStr s => negb (String.eqb s "")
  end.

(** [a and b]: the left operand when it is falsy, the right one otherwise. *)
Definition py_and (a b : PyVal) : PyVal :=
  if truthy a then b else a.

(** Truth value of a list: non-empty. *)
Definition truthy_list {A} (l : list A) : bool :=
  match l with
  | [] => false
  | _ :: _ => true
  end.

(** [d.get(k)] on a dict of values: [None] when the key is absent. *)
Definition dict_get (d : gmap string PyVal) (k : string) : PyVal :=
  default VNone (d !! k).

(** ** The process the script runs in *)

(** Modelled from the spec: the flags [args.GDB] and [args.REMOTE] are parsed
    and owned by the exploitation library; section 6 describes them as a
    boolean "attach debugger" flag and a boolean "use remote target" flag. *)
Record Args : Type := {
  GDB : bool;
  REMOTE : bool
}.

Record OS : Type := {
  environ : gmap string string;      (* os.environ *)
  executables : gmap string string;  (* what shutil.which resolves, name to path *)
  argv : list string;                (* sys.argv *)
  args : Args
}.

Definition environ_get (o : OS) (k : string) : PyVal :=
  match environ o !! k with
  | Some v => VStr v
  | None => VNone
  end.

Definition shutil_which (o : OS) (bin_name : string) : option string :=
  executables o !! bin_name.

(** ** The exploitation library, as an interface *)

Class PwnLib : Type := {
  World : Type;        (* the library's own state: children, sockets, ... *)
  Elf : Type;          (* a loaded binary *)
  path : Elf -> string;
  GdbSession : Type;
  Remote : Type;
  Process : Type;
  LibError : Type;     (* whatever the library raises *)
  _ELF : string -> list PyVal -> gmap string PyVal ->
         World -> (LibError + Elf) * World;
  gdb_debug : string -> PyVal -> World -> (LibError + GdbSession) * World;
  remote : string -> string -> World -> (LibError + Remote) * World;
  process : string -> World -> (LibError + Process) * World
}.

Section Pwn.
Context {L : PwnLib}.

(** The ambient launch context: [context.terminal] and [context.binary]. *)
Record Context : Type := {
  terminal : list string;
  binary : option Elf
}.

Record State : Type := {
  context : Context;
  os : OS;
  world : World
}.

(** An exception is either raised by the interpreter while it evaluates the
    module's own code, or comes out of a library primitive. *)
Inductive Exn : Type :=
  | IndexError
  | Propagated (e : LibError).

Inductive Outcome (A : Type) : Type :=
  | Ret (a : A)
  | Raise (e : Exn).
Arguments Ret {A} a.
Arguments Raise {A} e.

Definition M (A : Type) : Type := State -> Outcome A * State.

Definition ret {A} (a : A) : M A := fun st => (Ret a, st).

Definition raise {A} (e : Exn) : M A := fun st => (Raise e, st).

Definition bind {A B} (m : M A) (k : A -> M B) : M B :=
  fun st =>
    match m st with
    | (Ret a, st') => k a st'
    | (Raise e, st') => (Raise e, st')
    end.

Notation "'let*' x ':=' m 'in' k" := (bind m (fun x => k))
  (at level 10, x name, m at level 100, k at level 200).

Definition get_context : M Context := fun st => (Ret (context st), st).

Definition get_os : M OS := fun st => (Ret (os st), st).

(** [context.terminal = t] *)
Definition set_terminal (t : list string) : M unit :=
  fun st =>
    (Ret tt,
     {| context := {| terminal := t; binary := binary (context st) |};
        os := os st; world := world st |}).

(** [context.binary = elf] *)
Definition set_binary (elf : Elf) : M unit :=
  fun st =>
    (Ret tt,
     {| context := {| terminal := terminal (context st); binary := Some elf |};
        os := os st; world := world st |}).

(** A call into the library: the primitive runs on the library's world, and
    what it raises travels on as it is. *)
Definition call {A} (prim : World -> (LibError + A) * World) : M A :=
  fun st =>
    match prim (world st) with
    | (inr a, w) => (Ret a, {| context := context st; os := os st; world := w |})
    | (inl e, w) =>
        (Raise (Propagated e), {| context := context st; os := os st; world := w |})
    end.

(** [l[i]] for a non-negative literal index. *)
Definition index (l : list string) (i : nat) : M string :=
  match l !! i with
  | Some x => ret x
  | None => raise IndexError
  end.

(** ** get_terminal *)

Definition has (o : OS) (bin_name : string) : bool :=
  match shutil_which o bin_name with
  | Some _ => true
  | None => false
  end.

(** [split_flag = "-h" if split == "horizontal" else "-v"] *)
Definition split_flag (split : string) : string :=
  if String.eqb split "horizontal" then "-h" else "-v".

(** One row of [TERMINALS]: name, command, availability predicate. *)
Definition Candidate : Type := string * list string * (OS -> PyVal).

Definition TERMINALS (split_flag : string) : list Candidate :=
  [ ("tmux", ["tmux"; "splitw"; split_flag],
       fun o => py_and (environ_get o "TMUX") (VBool (has o "tmux")));
    ("kitty", ["kitty"; "-e"], fun o => VBool (has o "kitty"));
    ("wezterm", ["wezterm"; "start"; "--"], fun o => VBool (has o "wezterm"));
    ("alacritty", ["alacritty"; "-e"], fun o => VBool (has o "alacritty"));
    ("konsole", ["konsole"; "-e"], fun o => VBool (has o "konsole"));
    ("gnome-terminal", ["gnome-terminal"; "--"],
       fun o => VBool (has o "gnome-terminal"));
    ("xfce4-terminal", ["xfce4-terminal"; "-e"],
       fun o => VBool (has o "xfce4-terminal"));
    ("terminator", ["terminator"; "-x"], fun o => VBool (has o "terminator"));
    ("xterm", ["xterm"; "-e"], fun o => VBool (has o "xterm")) ].

(** The [for _, cmd, condition in TERMINALS] loop: [Some cmd] is the early
    return, [None] is falling out of the loop. *)
Fixpoint first_available (o : OS) (ts : list Candidate) : option (list string) :=
  match ts with
  | [] => None
  | (_, cmd, condition) :: rest =>
      if truthy (condition o) then Some cmd else first_available o rest
  end.

Definition get_terminal (split : string) (force : bool) : M (list string) :=
  let* ctx := get_context in
  if truthy_list (terminal ctx) && negb force then ret (terminal ctx)
  else
    let split_flag := split_flag split in
    let* o := get_os in
    match first_available o (TERMINALS split_flag) with
    | Some cmd => ret cmd
    | None => ret ["bash"; "-lc"]
    end.

(** The module-level statement [context.terminal = get_terminal()], with the
    defaults [split="horizontal"], [force=False]. *)
Definition module_init : M unit :=
  let* t := get_terminal "horizontal" false in
  set_terminal t.

(** ** ELF and start *)

Definition ELF (path : string) (args : list PyVal) (kwargs : gmap string PyVal)
  : M Elf :=
  let* elf := call (_ELF path args kwargs) in
  let* _ := set_binary elf in
  ret elf.

(** What [start] hands back: one of the three handles. *)
Inductive Target : Type :=
  | Debugged (g : GdbSession)
  | Connected (r : Remote)
  | Spawned (p : Process).

Definition start (elf : Elf) (kwargs : gmap string PyVal) : M Target :=
  let* o := get_os in
  if GDB (args o) && truthy (dict_get kwargs "gdbscript") then
    let* g := call (gdb_debug (path elf) (dict_get kwargs "gdbscript")) in
    ret (Debugged g)
  else if REMOTE (args o) then
    let* host := index (argv o) 1 in
    let* port := index (argv o) 2 in
    let* r := call (remote host port) in
    ret (Connected r)
  else
    let* p := call (process (path elf)) in
    ret (Spawned p).

End Pwn.

Arguments Ret {L A} a.
Arguments Raise {L A} e.

(** ** Derived notions used in the statements *)

Section Notions.
Context {L : PwnLib}.

(** Name, command and predicate of a row. *)
Definition name (c : Candidate) : string := c.1.1.
Definition cmd (c : Candidate) : list string := c.1.2.
Definition condition (c : Candidate) : OS -> PyVal := c.2.

(** The generic interactive shell invocation. *)
Definition fallback : list string := ["bash"; "-lc"].

(** What the part of [get_terminal] below the cache test computes. *)
Definition recomputed (split : string) (o : OS) : list string :=
  default fallback (first_available o (TERMINALS (split_flag split))).

(** Recomputation takes place: the call is forced or nothing is cached. *)
Definition recomputes (force : bool) (st : State) : Prop :=
  force = true \/ terminal (context st) = [].

(** A multiplexer session is active: [TMUX] is set to a non-empty value. *)
Definition session_active (o : OS) : bool := truthy (environ_get o "TMUX").

(** The terminal emulators of the table, that is all rows but the first. *)
Definition emulators : list string := map name (tail (TERMINALS "-h")).

(** The state with another process environment. *)
Definition with_os (st : State) (o : OS) : State :=
  {| context := context st; os := o; world := world st |}.

(** The outcome of handing the whole job to one primitive: its handle,
    wrapped, or its error, as raised. *)
Definition delegated {A B} (wrap : A -> B)
    (prim : World -> (LibError + A) * World) (st : State) : Outcome B * State :=
  let st' := {| context := context st; os := os st; world := (prim (world st)).2 |} in
  match (prim (world st)).1 with
  | inr a => (Ret (wrap a), st')
  | inl e => (Raise (Propagated e), st')
  end.

End Notions.

(** ** A small library instance to run the module on

    The instance logs every request in its world and answers with the
    request itself; a request on the empty path or host is refused. *)
Module Mock.

Inductive Request : Type :=
  | Load (path : string) (args : list PyVal) (kwargs : gmap string PyVal)
  | Attach (path : string) (gdbscript : PyVal)
  | Connect (host port : string)
  | Spawn (path : string).

Definition serve (what : string) (r : Request) (log : list Request)
  : (string + Request) * list Request :=
  if String.eqb what "" then (inl "refused", (log ++ [r])%list)
  else (inr r, (log ++ [r])%list).

Definition loaded_path (r : Request) : string :=
  match r with
  | Load p _ _ => p
  | Attach p _ => p
  | Connect h _ => h
  | Spawn p => p
  end.

#[export] Instance lib : PwnLib := {|
  World := list Request;
  Elf := Request;
  path := loaded_path;
  GdbSession := Request;
  Remote := Request;
  Process := Request;
  LibError := string;
  _ELF := fun p a k => serve p (Load p a k);
  gdb_debug := fun p s => serve p (Attach p s);
  remote := fun h p => serve h (Connect h p);
  process := fun p => serve p (Spawn p)
|}.

Definition no_flags : Args := {| GDB := false; REMOTE := false |}.

(** A desktop with xterm only. *)
Definition desktop : OS :=
  {| environ := {[ "HOME" := "/root" ]};
     executables := {[ "xterm" := "/usr/bin/xterm" ]};
     argv := ["exploit.py"];
     args := no_flags |}.

(** Inside a tmux session, tmux and kitty installed. *)
Definition in_tmux : OS :=
  {| environ := {[ "TMUX" := "/tmp/tmux-0/default,77,0" ]};
     executables := {[ "tmux" := "/usr/bin/tmux"; "kitty" := "/usr/bin/kitty" ]};
     argv := ["exploit.py"];
     args := no_flags |}.

(** A bare container: nothing on the search path. *)
Definition bare : OS :=
  {| environ := ∅; executables := ∅; argv := ["exploit.py"]; args := no_flags |}.

Definition fresh (o : OS) : State :=
  {| context := {| terminal := []; binary := None |}; os := o; world := [] |}.

Definition cached (t : list string) (o : OS) : State :=
  {| context := {| terminal := t; binary := None |}; os := o; world := [] |}.

Definition flagged (gdb rem : bool) (av : list string) : OS :=
  {| environ := ∅; executables := ∅; argv := av;
     args := {| GDB := gdb; REMOTE := rem |} |}.

Definition ls : @Elf lib := Load "/bin/ls" [] ∅.

End Mock.

(** ** The names the module binds, and [__all__]

    The module body is a sequence of bindings in the module's dict: a star
    import, an aliased import, two module imports and three [def]s.  Its
    last statement reads the dict back.  A Python dict keeps its keys in
    insertion order, and binding a key that is there keeps its place. *)
Module Namespace.

(** What a global name is bound to. *)
Inductive Binding : Type :=
  | Preset                        (* put there by the interpreter *)
  | Attr (module attr : string)   (* the object [attr] of [module] *)
  | Mod (module : string)         (* the module object itself *)
  | Def (name : string).          (* a function defined in this file *)

Definition Globals : Type := list (string * Binding).

Definition keys (g : Globals) : list string := map fst g.

(** [g[k] = v] *)
Fixpoint assign (k : string) (v : Binding) (g : Globals) : Globals :=
  match g with
  | [] => [(k, v)]
  | (k', v') :: rest =>
      if String.eqb k k' then (k, v) :: rest else (k', v') :: assign k v rest
  end.

(** [g.get(k)] *)
Fixpoint lookup (k : string) (g : Globals) : option Binding :=
  match g with
  | [] => None
  | (k', v) :: rest => if String.eqb k k' then Some v else lookup k rest
  end.

(** [from module import *], [names] being what the star brings in. *)
Definition import_star (module : string) (names : list string) (g : Globals)
  : Globals :=
  fold_left (fun g n => assign n (Attr module n) g) names g.

(** [name.startswith(prefix)] *)
Definition startswith (name prefix : string) : bool := String.prefix prefix name.

(** The dict when the last statement of the file is reached, from the dict
    [g0] the body started with and the names [pwn_names] of the star import. *)
Definition module_globals (g0 : Globals) (pwn_names : list string) : Globals :=
  let g := import_star "pwn" pwn_names g0 in
  let g := assign "_ELF" (Attr "pwnlib.elf.elf" "ELF") g in
  let g := assign "os" (Mod "os") g in
  let g := assign "shutil" (Mod "shutil") g in
  let g := assign "get_terminal" (Def "get_terminal") g in
  let g := assign "ELF" (Def "ELF") g in
  let g := assign "start" (Def "start") g in
  g.

(** [__all__ = [name for name in globals() if not name.startswith("_")]] *)
Definition __all__ (g0 : Globals) (pwn_names : list string) : list string :=
  filter (fun name => ¬ startswith name "_") (keys (module_globals g0 pwn_names)).

(** The names bound by the statements after the star import. *)
Definition own_names : list string :=
  ["_ELF"; "os"; "shutil"; "get_terminal"; "ELF"; "start"].

(** The names the function bodies read and the file never binds. *)
Definition borrowed_names : list string :=
  ["context"; "args"; "gdb"; "remote"; "process"; "sys"].

(** A module dict as the interpreter hands it over. *)
Definition sample_preset : Globals :=
  [("__name__", Preset); ("__doc__", Preset); ("__file__", Preset);
   ("__builtins__", Preset)].

(** A star import that brings, among others, a loader called [ELF]. *)
Definition sample_star : list string :=
  ["sys"; "os"; "context"; "args"; "ELF"; "gdb"; "remote"; "process"].

End Namespace.

(** ** More processes to run the module in *)
Module Samples.

(** tmux and xterm installed, but the script is not run inside a session. *)
Definition tmux_no_session : OS :=
  {| environ := {[ "HOME" := "/root" ]};
     executables := {[ "tmux" := "/usr/bin/tmux"; "xterm" := "/usr/bin/xterm" ]};
     argv := ["exploit.py"];
     args := Mock.no_flags |}.

(** xterm only, as [Mock.desktop], but installed elsewhere, with another
    environment and another command line. *)
Definition other_desktop : OS :=
  {| environ := {[ "DISPLAY" := ":0"; "TMUX" := "" ]};
     executables := {[ "xterm" := "/opt/X11/bin/xterm"; "gdb" := "/usr/bin/gdb" ]};
     argv := ["solve.py"; "10.0.0.7"; "1337"];
     args := {| GDB := true; REMOTE := true |} |}.

(** The remote flag with a host and a port, and a variant with another
    program name, one more argument and a non-empty environment. *)
Definition remote_run : OS := Mock.flagged false true ["exploit.py"; "10.0.0.7"; "1337"].

Definition remote_run_noisy : OS :=
  {| environ := {[ "TMUX" := "1" ]};
     executables := {[ "kitty" := "/usr/bin/kitty" ]};
     argv := ["./x"; "10.0.0.7"; "1337"; "DEBUG"];
     args := {| GDB := false; REMOTE := true |} |}.

End Samples.

(** * Facts about get_terminal *)

Section GetTerminalFacts.
Context {L : PwnLib}.

Ltac run_terminal :=
  unfold get_terminal, bind, get_context, get_os, ret;
  cbn -[first_available TERMINALS].

(** With something cached and no force, the cache is the answer. *)
Lemma get_terminal_cached (split : string) (st : State) :
  terminal (context st) ≠ [] ->
  get_terminal split false st = (Ret (terminal (context st)), st).
Proof.
  intros Hne. run_terminal.
  by destruct (terminal (context st)) as [|x t].
Qed.

(** Forced, or with nothing cached, the table is walked. *)
Lemma get_terminal_recomputed (split : string) (force : bool) (st : State) :
  recomputes force st ->
  get_terminal split force st = (Ret (recomputed split (os st)), st).
Proof.
  intros Hre. run_terminal.
  assert (truthy_list (terminal (context st)) && negb force = false) as ->.
  { destruct Hre as [-> | ->]; [apply andb_false_r | reflexivity]. }
  unfold recomputed.
  by destruct (first_available (os st) (TERMINALS (split_flag split))).
Qed.

(** Every call falls under one of the two lemmas above. *)
Lemma cached_or_recomputes (force : bool) (st : State) :
  (force = false /\ terminal (context st) ≠ []) \/ recomputes force st.
Proof.
  unfold recomputes. destruct force; [by right; left|].
  destruct (terminal (context st)); [by right; right | by left].
Qed.

Lemma split_flag_cases (split : string) :
  (split = "horizontal" /\ split_flag split = "-h")
  \/ (split ≠ "horizontal" /\ split_flag split = "-v").
Proof.
  unfold split_flag.
  destruct (String.eqb_spec split "horizontal"); [by left | by right].
Qed.

(** The loop returns the command of the first row whose predicate holds. *)
Lemma first_available_Some (o : OS) (ts : list Candidate) (c : list string) :
  first_available o ts = Some c <->
  exists i row,
    ts !! i = Some row /\ cmd row = c /\ truthy (condition row o) = true
    /\ forall j r, j < i -> ts !! j = Some r -> truthy (condition r o) = false.
Proof.
  induction ts as [|[[n c0] p] rest IH]; simpl.
  - split; [done | by intros (i & row & Hi & _)].
  - destruct (truthy (p o)) eqn:Hp.
    + split.
      * intros [= <-]. exists 0, (n, c0, p). repeat split; [done | lia].
      * intros (i & row & Hi & Hc & Ht & Hbefore).
        destruct i as [|i]; [by simplify_eq/= |].
        specialize (Hbefore 0 (n, c0, p)). simpl in Hbefore.
        rewrite Hbefore in Hp; [done | lia | done].
    + rewrite IH. split.
      * intros (i & row & Hi & Hc & Ht & Hbefore).
        exists (S i), row. repeat split; [done..|].
        intros [|j] r Hj Hr; simplify_eq/=; [done|].
        apply (Hbefore j); [lia | done].
      * intros (i & row & Hi & Hc & Ht & Hbefore).
        destruct i as [|i]; simplify_eq/=; [unfold condition in Ht; simpl in Ht; congruence|].
        exists i, row. repeat split; [done..|].
        intros j r Hj Hr. apply (Hbefore (S j)); [lia | done].
Qed.

(** It falls through exactly when no predicate holds. *)
Lemma first_available_None (o : OS) (ts : list Candidate) :
  first_available o ts = None <->
  forall row, row ∈ ts -> truthy (condition row o) = false.
Proof.
  induction ts as [|[[n c0] p] rest IH]; simpl.
  - split; [intros _ row Hin; by apply elem_of_nil in Hin | done].
  - destruct (truthy (p o)) eqn:Hp.
    + split; [done|]. intros Hall.
      specialize (Hall (n, c0, p)). unfold condition in Hall. simpl in Hall.
      rewrite Hall in Hp; [done | apply list_elem_of_here].
    + rewrite IH. split.
      * intros Hall row [-> | Hin]%elem_of_cons; [done | by apply Hall].
      * intros Hall row Hin. apply Hall. by apply list_elem_of_further.
Qed.

(** No row of the table carries an empty command. *)
Lemma first_available_nonempty (o : OS) (flag : string) (c : list string) :
  first_available o (TERMINALS flag) = Some c -> c ≠ [].
Proof.
  unfold TERMINALS. simpl.
  repeat (match goal with
          | |- (if ?b then _ else _) = _ -> _ => destruct b
          end); by intros [= <-].
Qed.

Lemma recomputed_nonempty (split : string) (o : OS) : recomputed split o ≠ [].
Proof.
  unfold recomputed.
  destruct (first_available o (TERMINALS (split_flag split))) eqn:Hf; simpl.
  - by eapply first_available_nonempty.
  - done.
Qed.

(** Every call returns, with a non-empty vector and the state as it was. *)
Lemma get_terminal_returns (split : string) (force : bool) (st : State) :
  exists c, get_terminal split force st = (Ret c, st) /\ c ≠ [].
Proof.
  destruct (cached_or_recomputes force st) as [[-> Hne] | Hre].
  - exists (terminal (context st)). split; [by apply get_terminal_cached | done].
  - exists (recomputed split (os st)).
    split; [by apply get_terminal_recomputed | apply recomputed_nonempty].
Qed.

(** The first row wins as soon as a session is active and tmux is found. *)
Lemma recomputed_tmux (split : string) (o : OS) :
  session_active o = true -> has o "tmux" = true ->
  recomputed split o = ["tmux"; "splitw"; split_flag split].
Proof.
  unfold session_active, recomputed. intros Hs Ht. simpl.
  unfold py_and. by rewrite Hs, Ht.
Qed.

(** Without the first row, the orientation plays no part. *)
Lemma recomputed_skip_tmux (split : string) (o : OS) :
  truthy (py_and (environ_get o "TMUX") (VBool (has o "tmux"))) = false ->
  recomputed split o
  = default fallback (first_available o (tail (TERMINALS "-h"))).
Proof.
  unfold recomputed. intros Hc. simpl. by rewrite Hc.
Qed.

End GetTerminalFacts.

Section GetTerminalClaims.
Context {L : PwnLib}.

(** C2.  For every orientation and every force flag, in every state,
    [get_terminal] returns, and what it returns is a non-empty command
    vector.  When recomputation takes place and no row's availability
    predicate holds, the vector is the generic shell invocation. *)
Theorem get_terminal_total (split : string) (force : bool) (st : State) :
  exists c,
    get_terminal split force st = (Ret c, st) /\ c ≠ []
    /\ (recomputes force st ->
        (forall row, row ∈ TERMINALS (split_flag split) ->
                     truthy (condition row (os st)) = false) ->
        c = ["bash"; "-lc"]).
Proof.
  destruct (cached_or_recomputes force st) as [[-> Hne] | Hre].
  - exists (terminal (context st)). split; [by apply get_terminal_cached|].
    split; [done|]. intros [? | ?]; congruence.
  - exists (recomputed split (os st)).
    split; [by apply get_terminal_recomputed|].
    split; [apply recomputed_nonempty|].
    intros _ Hall. apply first_available_None in Hall.
    unfold recomputed. by rewrite Hall.
Qed.

(** C4.  With a terminal command cached, a call with [force=False] returns
    the cached value and leaves the state alone; a second such call, made
    after the process environment changed in any way, returns the same value.
    A call with [force=True] returns what the walk over the table gives. *)
Theorem get_terminal_memoized (s1 s2 s3 : string) (st : State) (o' : OS) :
  terminal (context st) ≠ [] ->
  get_terminal s1 false st = (Ret (terminal (context st)), st)
  /\ get_terminal s2 false (with_os st o')
     = (Ret (terminal (context st)), with_os st o')
  /\ get_terminal s3 true st = (Ret (recomputed s3 (os st)), st).
Proof.
  intros Hne. split; [by apply get_terminal_cached|]. split.
  - by apply (get_terminal_cached s2 (with_os st o')).
  - apply get_terminal_recomputed. by left.
Qed.

(** C5.  When recomputation takes place, [TMUX] is set to a non-empty value
    and [tmux] is found on the search path, the result is the tmux split
    command with the flag of the requested orientation: ["-h"] for
    horizontal, ["-v"] for vertical. *)
Theorem get_terminal_tmux (split : string) (force : bool) (st : State)
    (v : string) :
  recomputes force st ->
  environ (os st) !! "TMUX" = Some v -> v ≠ "" ->
  is_Some (shutil_which (os st) "tmux") ->
  get_terminal split force st = (Ret ["tmux"; "splitw"; split_flag split], st)
  /\ get_terminal "horizontal" force st = (Ret ["tmux"; "splitw"; "-h"], st)
  /\ get_terminal "vertical" force st = (Ret ["tmux"; "splitw"; "-v"], st).
Proof.
  intros Hre Hv Hne [p Hp].
  assert (session_active (os st) = true) as Hs.
  { unfold session_active, environ_get. rewrite Hv. simpl.
    apply negb_true_iff. by apply String.eqb_neq. }
  assert (has (os st) "tmux" = true) as Ht by (unfold has; by rewrite Hp).
  repeat split; rewrite get_terminal_recomputed by done;
    by rewrite recomputed_tmux.
Qed.

(** C6.  When recomputation takes place, none of the terminal emulators of
    the table is found on the search path and no multiplexer session is
    active, the result is the generic shell command. *)
Theorem get_terminal_fallback (split : string) (force : bool) (st : State) :
  recomputes force st ->
  (forall n, n ∈ emulators -> shutil_which (os st) n = None) ->
  session_active (os st) = false ->
  get_terminal split force st = (Ret ["bash"; "-lc"], st).
Proof.
  intros Hre Hnone Hs. rewrite get_terminal_recomputed by done.
  rewrite recomputed_skip_tmux.
  2:{ unfold py_and. unfold session_active in Hs. by rewrite Hs. }
  assert (forall n, n ∈ emulators -> has (os st) n = false) as Hhas.
  { intros n Hn. unfold has. by rewrite Hnone. }
  unfold emulators in Hhas. simpl in Hhas. simpl.
  rewrite !Hhas; [done | set_solver..].
Qed.

(** C7.  In the table only the first row's command holds the orientation
    flag: the rows after it are the same for every flag and none of their
    commands holds ["-h"] or ["-v"].  Whenever [get_terminal] returns
    something else than the first row's command, it returns the same for
    every other orientation. *)
Theorem split_flag_first_row_only (s1 s2 : string) :
  (exists nm p rest,
     TERMINALS (split_flag s1) = (nm, ["tmux"; "splitw"; split_flag s1], p) :: rest)
  /\ tail (TERMINALS (split_flag s1)) = tail (TERMINALS (split_flag s2))
  /\ (forall row, row ∈ tail (TERMINALS (split_flag s1)) ->
                  ("-h" ∉ cmd row) /\ ("-v" ∉ cmd row))
  /\ (forall force st c,
        get_terminal s1 force st = (Ret c, st) ->
        c ≠ ["tmux"; "splitw"; split_flag s1] ->
        get_terminal s2 force st = (Ret c, st)).
Proof.
  split; [by eexists _, _, _|]. split; [done|]. split.
  - intros row Hrow. simpl in Hrow.
    repeat (apply elem_of_cons in Hrow as [-> | Hrow];
            [split; by apply (bool_decide_unpack _)|]).
    by apply elem_of_nil in Hrow.
  - intros force st c Hc Hnot.
    destruct (cached_or_recomputes force st) as [[-> Hne] | Hre].
    + rewrite get_terminal_cached in Hc |- * by done. done.
    + rewrite get_terminal_recomputed in Hc |- * by done.
      injection Hc as Hc.
      destruct (truthy (py_and (environ_get (os st) "TMUX")
                               (VBool (has (os st) "tmux")))) eqn:Htm.
      * exfalso. apply Hnot. rewrite <- Hc. unfold recomputed. simpl.
        by rewrite Htm.
      * rewrite recomputed_skip_tmux in Hc |- * by done. by rewrite Hc.
Qed.

(** C9.  Any string is taken as orientation: the call returns, and an
    orientation other than exactly ["horizontal"] gives the flag ["-v"],
    which is the one in the result when the split-capable row is chosen. *)
Theorem get_terminal_any_orientation (split : string) (force : bool)
    (st : State) :
  split ≠ "horizontal" ->
  split_flag split = "-v"
  /\ (exists c, get_terminal split force st = (Ret c, st))
  /\ (recomputes force st ->
      session_active (os st) = true -> has (os st) "tmux" = true ->
      get_terminal split force st = (Ret ["tmux"; "splitw"; "-v"], st)).
Proof.
  intros Hne.
  assert (split_flag split = "-v") as Hflag.
  { by destruct (split_flag_cases split) as [[? _] | [_ ?]]. }
  split; [done|]. split.
  - destruct (get_terminal_returns split force st) as (c & Hc & _). eauto.
  - intros Hre Hs Ht. rewrite get_terminal_recomputed by done.
    by rewrite recomputed_tmux, Hflag.
Qed.

End GetTerminalClaims.

(** * Facts about ELF and start *)

Section LaunchFacts.
Context {L : PwnLib}.

(** A lone library call in tail position is a delegation. *)
Lemma call_delegated {A B} (wrap : A -> B)
    (prim : World -> (LibError + A) * World) (st : State) :
  bind (call prim) (fun a => ret (wrap a)) st = delegated wrap prim st.
Proof.
  unfold bind, call, delegated, ret.
  by destruct (prim (world st)) as [[e | a] w].
Qed.

(** A delegation touches nothing but the library's world. *)
Lemma delegated_frame {A B} (wrap : A -> B)
    (prim : World -> (LibError + A) * World) (st : State) :
  context (delegated wrap prim st).2 = context st
  /\ os (delegated wrap prim st).2 = os st.
Proof.
  unfold delegated. by destruct (prim (world st)) as [[e | a] w].
Qed.

(** What a delegation raises is what the primitive raised. *)
Lemma delegated_raise {A B} (wrap : A -> B)
    (prim : World -> (LibError + A) * World) (st st' : State) (e : Exn) :
  delegated wrap prim st = (Raise e, st') ->
  exists le w,
    e = Propagated le /\ prim (world st) = (inl le, w)
    /\ st' = {| context := context st; os := os st; world := w |}.
Proof.
  unfold delegated. destruct (prim (world st)) as [[le | a] w]; simpl.
  - intros [= <- <-]. by exists le, w.
  - done.
Qed.

(** A delegation raises exactly what its primitive raises, on the world the
    primitive leaves. *)
Lemma delegated_raise_iff {A B} (wrap : A -> B)
    (prim : World -> (LibError + A) * World) (st st' : State) (e : Exn) :
  delegated wrap prim st = (Raise e, st') <->
  exists le w,
    e = Propagated le /\ prim (world st) = (inl le, w)
    /\ st' = {| context := context st; os := os st; world := w |}.
Proof.
  split; [apply delegated_raise|].
  intros (le & w & -> & Hprim & ->). unfold delegated. by rewrite Hprim.
Qed.

(** The three branches of [start], one equation each. *)
Lemma start_gdb (elf : Elf) (kwargs : gmap string PyVal) (st : State) :
  GDB (args (os st)) = true ->
  truthy (dict_get kwargs "gdbscript") = true ->
  start elf kwargs st
  = delegated Debugged (gdb_debug (path elf) (dict_get kwargs "gdbscript")) st.
Proof.
  intros Hg Hs. rewrite <- call_delegated.
  unfold start at 1, bind at 1, get_os. simpl. by rewrite Hg, Hs.
Qed.

Lemma start_remote (elf : Elf) (kwargs : gmap string PyVal) (st : State)
    (host port : string) :
  GDB (args (os st)) && truthy (dict_get kwargs "gdbscript") = false ->
  REMOTE (args (os st)) = true ->
  argv (os st) !! 1 = Some host -> argv (os st) !! 2 = Some port ->
  start elf kwargs st = delegated Connected (remote host port) st.
Proof.
  intros Hg Hr Hh Hp. rewrite <- call_delegated.
  unfold start at 1, bind at 1, get_os. simpl. rewrite Hg, Hr.
  unfold bind at 1, index. rewrite Hh. unfold ret at 1.
  unfold bind at 1. by rewrite Hp.
Qed.

Lemma start_remote_short (elf : Elf) (kwargs : gmap string PyVal) (st : State) :
  GDB (args (os st)) && truthy (dict_get kwargs "gdbscript") = false ->
  REMOTE (args (os st)) = true ->
  length (argv (os st)) < 3 ->
  start elf kwargs st = (Raise IndexError, st).
Proof.
  intros Hg Hr Hlen.
  unfold start, bind at 1, get_os. simpl. rewrite Hg, Hr.
  unfold bind, index, raise, ret.
  destruct (argv (os st)) as [|a0 [|a1 [|a2 rest]]]; simpl in *; try done; lia.
Qed.

Lemma start_process (elf : Elf) (kwargs : gmap string PyVal) (st : State) :
  GDB (args (os st)) && truthy (dict_get kwargs "gdbscript") = false ->
  REMOTE (args (os st)) = false ->
  start elf kwargs st = delegated Spawned (process (path elf)) st.
Proof.
  intros Hg Hr. rewrite <- call_delegated.
  unfold start at 1, bind at 1, get_os. simpl. by rewrite Hg, Hr.
Qed.

(** [start] never writes the launch context. *)
Lemma start_frame (elf : Elf) (kwargs : gmap string PyVal) (st : State) :
  context (start elf kwargs st).2 = context st.
Proof.
  destruct (GDB (args (os st)) && truthy (dict_get kwargs "gdbscript")) eqn:Hg.
  - apply andb_true_iff in Hg as [Hg Hs].
    rewrite start_gdb by done. apply delegated_frame.
  - destruct (REMOTE (args (os st))) eqn:Hr.
    + destruct (argv (os st) !! 1) as [host|] eqn:Hh;
        [destruct (argv (os st) !! 2) as [port|] eqn:Hp|].
      * rewrite (start_remote _ _ _ host port) by done. apply delegated_frame.
      * rewrite start_remote_short; [done..|].
        apply lookup_ge_None in Hp. lia.
      * rewrite start_remote_short; [done..|].
        apply lookup_ge_None in Hh. lia.
    + rewrite start_process by done. apply delegated_frame.
Qed.

Lemma ELF_unfold (p : string) (a : list PyVal) (k : gmap string PyVal)
    (st : State) :
  ELF p a k st =
  match _ELF p a k (world st) with
  | (inr elf, w) =>
      (Ret elf,
       {| context := {| terminal := terminal (context st); binary := Some elf |};
          os := os st; world := w |})
  | (inl e, w) =>
      (Raise (Propagated e),
       {| context := context st; os := os st; world := w |})
  end.
Proof.
  unfold ELF, bind, call, set_binary, ret.
  by destruct (_ELF p a k (world st)) as [[e | elf] w].
Qed.

End LaunchFacts.

Section LaunchClaims.
Context {L : PwnLib}.

(** C1, as amended.  [start] takes exactly one of three branches, tried in
    this order.  If the debug flag is set and the [gdbscript] option holds
    a truthy value, the whole call is the debugger attach on the handle's
    path with that value.  Else, if the remote flag is set and the raw
    argument list has entries at index 1 and 2, it is the connect to that
    host and port.  Else, if the remote flag is not set, it is the local
    spawn of the handle's path. *)
Theorem start_dispatch (elf : Elf) (kwargs : gmap string PyVal) (st : State) :
  (forall script,
     GDB (args (os st)) = true ->
     kwargs !! "gdbscript" = Some script -> truthy script = true ->
     start elf kwargs st
     = delegated Debugged (gdb_debug (path elf) script) st)
  /\ (forall host port,
        GDB (args (os st)) = false
        \/ truthy (dict_get kwargs "gdbscript") = false ->
        REMOTE (args (os st)) = true ->
        argv (os st) !! 1 = Some host -> argv (os st) !! 2 = Some port ->
        start elf kwargs st = delegated Connected (remote host port) st)
  /\ (GDB (args (os st)) = false
      \/ truthy (dict_get kwargs "gdbscript") = false ->
      REMOTE (args (os st)) = false ->
      start elf kwargs st = delegated Spawned (process (path elf)) st).
Proof.
  assert (GDB (args (os st)) = false
          \/ truthy (dict_get kwargs "gdbscript") = false ->
          GDB (args (os st)) && truthy (dict_get kwargs "gdbscript") = false)
    as Hoff by (intros [-> | ->]; [done | apply andb_false_r]).
  repeat split.
  - intros script Hg Hk Hs.
    assert (dict_get kwargs "gdbscript" = script) as Hget
      by (unfold dict_get; by rewrite Hk).
    rewrite <- Hget. apply start_gdb; [done | by rewrite Hget].
  - intros host port Hg Hr Hh Hp. apply start_remote; auto.
  - intros Hg Hr. apply start_process; auto.
Qed.

(** C3, as amended.  [start] raises [IndexError] exactly when the remote
    branch is taken (debug guard off, remote flag set) with fewer than three
    entries in the raw argument list; the state is then as it was, so no
    primitive was called.  It raises a library error exactly when the one
    primitive of the branch taken raised that error: the debugger attach
    when the debug guard holds, the connect to the host and port of entries
    1 and 2 when the guard is off and the remote flag set, the local spawn
    when both are off.  The error is the primitive's own and the state is
    the one the primitive left. *)
Theorem start_errors (elf : Elf) (kwargs : gmap string PyVal) (st st' : State)
    (e : Exn) :
  start elf kwargs st = (Raise e, st') <->
  (e = IndexError /\ st' = st
   /\ GDB (args (os st)) && truthy (dict_get kwargs "gdbscript") = false
   /\ REMOTE (args (os st)) = true /\ length (argv (os st)) < 3)
  \/ (exists le w,
        e = Propagated le
        /\ st' = {| context := context st; os := os st; world := w |}
        /\ ((GDB (args (os st)) && truthy (dict_get kwargs "gdbscript") = true
             /\ gdb_debug (path elf) (dict_get kwargs "gdbscript") (world st)
                = (inl le, w))
            \/ (GDB (args (os st)) && truthy (dict_get kwargs "gdbscript") = false
                /\ REMOTE (args (os st)) = true
                /\ exists host port,
                     argv (os st) !! 1 = Some host
                     /\ argv (os st) !! 2 = Some port
                     /\ remote host port (world st) = (inl le, w))
            \/ (GDB (args (os st)) && truthy (dict_get kwargs "gdbscript") = false
                /\ REMOTE (args (os st)) = false
                /\ process (path elf) (world st) = (inl le, w)))).
Proof.
  destruct (GDB (args (os st)) && truthy (dict_get kwargs "gdbscript")) eqn:Hg.
  - pose proof Hg as Hguard. apply andb_true_iff in Hg as [Hg Hs].
    rewrite start_gdb by done. rewrite delegated_raise_iff. split.
    + intros (le & w & -> & Hprim & ->). right. exists le, w. auto.
    + intros [(_ & _ & Hoff & _) | (le & w & -> & -> & Hbranch)]; [done|].
      destruct Hbranch as [[_ Hprim] | [[Hoff _] | [Hoff _]]]; [|done..].
      by exists le, w.
  - destruct (REMOTE (args (os st))) eqn:Hr.
    + destruct (argv (os st) !! 1) as [host|] eqn:Hh;
        [destruct (argv (os st) !! 2) as [port|] eqn:Hp|].
      * rewrite (start_remote _ _ _ host port) by done.
        rewrite delegated_raise_iff. split.
        -- intros (le & w & -> & Hprim & ->). right. exists le, w.
           split; [done|]. split; [done|]. right; left.
           split; [done|]. split; [done|]. by exists host, port.
        -- intros [(_ & _ & _ & _ & Hlen) | (le & w & -> & -> & Hbranch)].
           ++ apply lookup_lt_Some in Hp. lia.
           ++ destruct Hbranch
                as [[Hon _] | [(_ & _ & h & q & Hh' & Hq' & Hprim) | (_ & Hoff & _)]];
                [done | | done].
              simplify_eq. by exists le, w.
      * apply lookup_ge_None in Hp.
        rewrite start_remote_short; [|done..|lia]. split.
        -- intros [= <- <-]. left. repeat split; lia.
        -- intros [(-> & -> & _) | (le & w & -> & -> & Hbranch)]; [done|].
           destruct Hbranch
             as [[Hon _] | [(_ & _ & h & q & _ & Hq' & _) | (_ & Hoff & _)]];
             done.
      * apply lookup_ge_None in Hh.
        rewrite start_remote_short; [|done..|lia]. split.
        -- intros [= <- <-]. left. repeat split; lia.
        -- intros [(-> & -> & _) | (le & w & -> & -> & Hbranch)]; [done|].
           destruct Hbranch
             as [[Hon _] | [(_ & _ & h & q & Hh' & _ & _) | (_ & Hoff & _)]];
             done.
    + rewrite start_process by done. rewrite delegated_raise_iff. split.
      * intros (le & w & -> & Hprim & ->). right. exists le, w.
        split; [done|]. split; [done|]. right; right. by repeat split.
      * intros [(_ & _ & _ & Hon & _) | (le & w & -> & -> & Hbranch)]; [done|].
        destruct Hbranch as [[Hon _] | [(_ & Hon & _) | (_ & _ & Hprim)]];
          [done.. |].
        by exists le, w.
Qed.

(** C8.  [ELF] hands the path and all extra arguments to the library's
    loader.  When the loader returns a handle, [ELF] returns that handle
    and the launch context holds it as the current binary, the cached
    terminal being as before.  When the loader raises, [ELF] raises the same
    error and the launch context is as before. *)
Theorem ELF_delegates (p : string) (a : list PyVal) (k : gmap string PyVal)
    (st : State) :
  (forall elf w,
     _ELF p a k (world st) = (inr elf, w) ->
     ELF p a k st
     = (Ret elf,
        {| context := {| terminal := terminal (context st); binary := Some elf |};
           os := os st; world := w |}))
  /\ (forall e w,
        _ELF p a k (world st) = (inl e, w) ->
        ELF p a k st
        = (Raise (Propagated e),
           {| context := context st; os := os st; world := w |})).
Proof.
  split; intros ? w Hload; by rewrite ELF_unfold, Hload.
Qed.

(** C10.  [get_terminal] leaves the state as it found it, so a forced call
    returns the freshly computed command without storing it and a later
    unforced call still returns the value that was cached.  The cache is
    written by the module-level assignment, which stores what the call with
    default arguments returned; [ELF] and [start] do not write it. *)
Theorem terminal_cache_written_once (split : string) (force : bool)
    (st : State) :
  (get_terminal split force st).2 = st
  /\ (forall s2,
        terminal (context st) ≠ [] ->
        (get_terminal split true st).1 = Ret (recomputed split (os st))
        /\ get_terminal s2 false (get_terminal split true st).2
           = (Ret (terminal (context st)), st))
  /\ (exists c,
        get_terminal "horizontal" false st = (Ret c, st)
        /\ module_init st
           = (Ret tt,
              {| context := {| terminal := c; binary := binary (context st) |};
                 os := os st; world := world st |}))
  /\ (forall p a k, terminal (context (ELF p a k st).2) = terminal (context st))
  /\ (forall elf kwargs, context (start elf kwargs st).2 = context st).
Proof.
  assert (forall s f, exists c, get_terminal s f st = (Ret c, st)) as Hret.
  { intros s f. destruct (get_terminal_returns s f st) as (c & Hc & _). eauto. }
  split; [|split; [|split; [|split]]].
  - destruct (Hret split force) as [c ->]. done.
  - intros s2 Hne.
    rewrite (get_terminal_recomputed split true st) by (by left). simpl.
    split; [done | by apply get_terminal_cached].
  - destruct (Hret "horizontal" false) as [c Hc]. exists c. split; [done|].
    unfold module_init, bind. by rewrite Hc.
  - intros p a k. rewrite ELF_unfold.
    by destruct (_ELF p a k (world st)) as [[e | elf] w].
  - intros elf kwargs. apply start_frame.
Qed.

End LaunchClaims.

(** * The claims on concrete runs *)

Section Runs.
Import Mock.

(** C2 on a bare container, forced, with a stale cache. *)
Lemma get_terminal_total_witness :
  exists c,
    get_terminal "horizontal" true (cached ["foo"] bare)
    = (Ret c, cached ["foo"] bare)
    /\ c = ["bash"; "-lc"].
Proof.
  destruct (get_terminal_total "horizontal" true (cached ["foo"] bare))
    as (c & Hc & _ & Hfb).
  exists c. split; [exact Hc|]. apply Hfb; [by left|].
  intros row Hrow. simpl in Hrow.
  repeat (apply elem_of_cons in Hrow as [-> | Hrow]; [reflexivity|]).
  by apply elem_of_nil in Hrow.
Defined.

(** C4: xterm cached inside a tmux session; the environment is then wiped. *)
Lemma get_terminal_memoized_witness :
  get_terminal "horizontal" false (cached ["xterm"; "-e"] in_tmux)
  = (Ret ["xterm"; "-e"], cached ["xterm"; "-e"] in_tmux)
  /\ get_terminal "vertical" false (with_os (cached ["xterm"; "-e"] in_tmux) bare)
     = (Ret ["xterm"; "-e"], cached ["xterm"; "-e"] bare)
  /\ get_terminal "horizontal" true (cached ["xterm"; "-e"] in_tmux)
     = (Ret ["tmux"; "splitw"; "-h"], cached ["xterm"; "-e"] in_tmux).
Proof.
  apply (get_terminal_memoized "horizontal" "vertical" "horizontal"
           (cached ["xterm"; "-e"] in_tmux) bare).
  discriminate.
Defined.

(** C5 inside a tmux session with nothing cached. *)
Lemma get_terminal_tmux_witness :
  get_terminal "vertical" false (fresh in_tmux)
  = (Ret ["tmux"; "splitw"; "-v"], fresh in_tmux)
  /\ get_terminal "horizontal" false (fresh in_tmux)
     = (Ret ["tmux"; "splitw"; "-h"], fresh in_tmux)
  /\ get_terminal "vertical" false (fresh in_tmux)
     = (Ret ["tmux"; "splitw"; "-v"], fresh in_tmux).
Proof.
  apply (get_terminal_tmux "vertical" false (fresh in_tmux)
           "/tmp/tmux-0/default,77,0").
  - right. reflexivity.
  - reflexivity.
  - discriminate.
  - exists "/usr/bin/tmux". reflexivity.
Defined.

(** C6 on a bare container. *)
Lemma get_terminal_fallback_witness :
  get_terminal "horizontal" false (fresh bare) = (Ret ["bash"; "-lc"], fresh bare).
Proof.
  apply (get_terminal_fallback "horizontal" false (fresh bare)).
  - right. reflexivity.
  - intros n _. apply lookup_empty.
  - reflexivity.
Defined.

(** C7 on a desktop with xterm only: the answer for horizontal is the
    answer for vertical. *)
Lemma split_flag_first_row_only_witness :
  get_terminal "vertical" false (fresh desktop)
  = (Ret ["xterm"; "-e"], fresh desktop).
Proof.
  destruct (split_flag_first_row_only "horizontal" "vertical")
    as (_ & _ & _ & Hsame).
  apply Hsame; [reflexivity | discriminate].
Defined.

(** C9 with an orientation outside the two documented ones. *)
Lemma get_terminal_any_orientation_witness :
  split_flag "diagonal" = "-v"
  /\ get_terminal "diagonal" false (fresh in_tmux)
     = (Ret ["tmux"; "splitw"; "-v"], fresh in_tmux).
Proof.
  destruct (get_terminal_any_orientation "diagonal" false (fresh in_tmux))
    as (Hflag & _ & Htmux); [discriminate|].
  split; [exact Hflag|].
  apply Htmux; [right|..]; reflexivity.
Defined.

(** C1 as stated fails on two runs.  With the debug flag set and
    [gdbscript=""] supplied, no debugger is attached: the only request the
    library sees is the local spawn.  With the remote flag set and a raw
    argument list of one entry, nothing is connected and no handle is
    returned. *)
Lemma start_dispatch_counterexample :
  (GDB (args (flagged true false ["exploit.py"])) = true
   /\ ({[ "gdbscript" := VStr "" ]} : gmap string PyVal) !! "gdbscript"
      = Some (VStr "")
   /\ start ls {[ "gdbscript" := VStr "" ]}
        (fresh (flagged true false ["exploit.py"]))
      ≠ delegated Debugged (gdb_debug (path ls) (VStr ""))
          (fresh (flagged true false ["exploit.py"]))
   /\ (start ls {[ "gdbscript" := VStr "" ]}
         (fresh (flagged true false ["exploit.py"]))).1
      = Ret (Spawned (Spawn "/bin/ls"))
   /\ world (start ls {[ "gdbscript" := VStr "" ]}
               (fresh (flagged true false ["exploit.py"]))).2
      = [Spawn "/bin/ls"])
  /\ (REMOTE (args (flagged false true ["exploit.py"])) = true
      /\ start ls ∅ (fresh (flagged false true ["exploit.py"]))
         = (Raise IndexError, fresh (flagged false true ["exploit.py"]))).
Proof.
  split; [|split; reflexivity].
  split; [reflexivity|]. split; [reflexivity|].
  split; [|split; reflexivity].
  vm_compute. discriminate.
Qed.

(** C1, as amended, on three runs: a script to attach with, a host and a
    port to connect to, and a plain local spawn. *)
Lemma start_dispatch_witness :
  start ls {[ "gdbscript" := VStr "b main" ]}
    (fresh (flagged true true ["exploit.py"]))
  = delegated Debugged (gdb_debug "/bin/ls" (VStr "b main"))
      (fresh (flagged true true ["exploit.py"]))
  /\ start ls {[ "gdbscript" := VStr "" ]}
       (fresh (flagged true true ["exploit.py"; "10.0.0.7"; "1337"]))
     = delegated Connected (remote "10.0.0.7" "1337")
         (fresh (flagged true true ["exploit.py"; "10.0.0.7"; "1337"]))
  /\ start ls ∅ (fresh (flagged true false ["exploit.py"]))
     = delegated Spawned (process "/bin/ls")
         (fresh (flagged true false ["exploit.py"])).
Proof.
  split; [|split].
  - destruct (start_dispatch ls {[ "gdbscript" := VStr "b main" ]}
                (fresh (flagged true true ["exploit.py"]))) as (Hgdb & _ & _).
    apply Hgdb; reflexivity.
  - destruct (start_dispatch ls {[ "gdbscript" := VStr "" ]}
                (fresh (flagged true true ["exploit.py"; "10.0.0.7"; "1337"])))
      as (_ & Hremote & _).
    apply Hremote; [right|..]; reflexivity.
  - destruct (start_dispatch ls ∅ (fresh (flagged true false ["exploit.py"])))
      as (_ & _ & Hspawn).
    apply Hspawn; [right|]; reflexivity.
Defined.

(** C3 as stated fails: with the remote flag set and no host or port on the
    command line, [start] raises an [IndexError] of its own, before any
    primitive is called. *)
Lemma start_errors_counterexample :
  start ls ∅ (fresh (flagged false true ["exploit.py"]))
  = (Raise IndexError, fresh (flagged false true ["exploit.py"]))
  /\ (forall le : LibError, IndexError ≠ Propagated le)
  /\ world (start ls ∅ (fresh (flagged false true ["exploit.py"]))).2 = [].
Proof.
  split; [reflexivity|]. split; [discriminate | reflexivity].
Qed.

(** C3, as amended, read in both directions.  From a run that raised: the
    error is the one the connect raised.  From the flags and the command
    line alone: a host without a port raises [IndexError] and leaves the
    state alone.  And from the debugger attach being refused while the
    debug guard holds: that error is what [start] raises, although the
    remote flag is set as well. *)
Lemma start_errors_witness :
  (exists le w,
     @remote lib "" "1337" [] = (inl le, w)
     /\ start ls ∅ (fresh (flagged false true ["exploit.py"; ""; "1337"]))
        = (Raise (Propagated le),
           {| context := context (fresh bare);
              os := flagged false true ["exploit.py"; ""; "1337"]; world := w |}))
  /\ start ls ∅ (fresh (flagged false true ["exploit.py"; "10.0.0.7"]))
     = (Raise IndexError, fresh (flagged false true ["exploit.py"; "10.0.0.7"]))
  /\ start (Load "" [] ∅ : @Elf lib) {[ "gdbscript" := VStr "b main" ]}
       (fresh (flagged true true ["exploit.py"]))
     = (Raise (Propagated "refused"),
        {| context := context (fresh bare);
           os := flagged true true ["exploit.py"];
           world := [Attach "" (VStr "b main")] |}).
Proof.
  split; [|split].
  - destruct (start_errors (L:=lib) ls ∅
                (fresh (flagged false true ["exploit.py"; ""; "1337"]))
                {| context := context (fresh bare);
                   os := flagged false true ["exploit.py"; ""; "1337"];
                   world := [Connect "" "1337"] |}
                (Propagated (L:=lib) "refused")) as [Hfrom _].
    destruct (Hfrom eq_refl)
      as [(Hlocal & _) | (le & w & Hle & Hst & Hbranch)]; [discriminate|].
    exists le, w. injection Hle as <-. injection Hst as <-.
    destruct Hbranch
      as [[Hon _] | [(_ & _ & host & port & Hh & Hp & Hconn) | (_ & Hoff & _)]].
    + discriminate.
    + injection Hh as <-. injection Hp as <-.
      split; [exact Hconn | reflexivity].
    + discriminate.
  - apply (start_errors (L:=lib) ls ∅).
    left. split; [reflexivity|]. split; [reflexivity|].
    split; [reflexivity|]. split; [reflexivity|]. simpl. lia.
  - apply (start_errors (L:=lib) (Load "" [] ∅) {[ "gdbscript" := VStr "b main" ]}).
    right. exists "refused", [Attach "" (VStr "b main")].
    split; [reflexivity|]. split; [reflexivity|].
    left. split; reflexivity.
Defined.

(** C8 on a load that succeeds and on one that is refused. *)
Lemma ELF_delegates_witness :
  ELF "/bin/ls" [VStr "checksec"] ∅ (cached ["xterm"; "-e"] bare)
  = (Ret (Load "/bin/ls" [VStr "checksec"] ∅),
     {| context := {| terminal := ["xterm"; "-e"];
                      binary := Some (Load "/bin/ls" [VStr "checksec"] ∅) |};
        os := bare; world := [Load "/bin/ls" [VStr "checksec"] ∅] |})
  /\ ELF "" [] ∅ (cached ["xterm"; "-e"] bare)
     = (Raise (Propagated "refused"),
        {| context := {| terminal := ["xterm"; "-e"]; binary := None |};
           os := bare; world := [Load "" [] ∅] |}).
Proof.
  split.
  - destruct (ELF_delegates "/bin/ls" [VStr "checksec"] ∅
                (cached ["xterm"; "-e"] bare)) as (Hok & _).
    apply Hok. reflexivity.
  - destruct (ELF_delegates "" [] ∅ (cached ["xterm"; "-e"] bare))
      as (_ & Herr).
    apply (Herr "refused"). reflexivity.
Defined.

(** C10: xterm cached inside a tmux session; a forced call answers tmux,
    the unforced call after it answers xterm again. *)
Lemma terminal_cache_written_once_witness :
  (get_terminal "horizontal" true (cached ["xterm"; "-e"] in_tmux)).1
  = Ret ["tmux"; "splitw"; "-h"]
  /\ get_terminal "horizontal" false
       (get_terminal "horizontal" true (cached ["xterm"; "-e"] in_tmux)).2
     = (Ret ["xterm"; "-e"], cached ["xterm"; "-e"] in_tmux).
Proof.
  destruct (terminal_cache_written_once "horizontal" true
              (cached ["xterm"; "-e"] in_tmux)) as (_ & Hseq & _).
  apply (Hseq "horizontal"). discriminate.
Defined.

End Runs.

(** * Further properties of get_terminal *)

Section GetTerminalMore.
Context {L : PwnLib}.

(** The first row's predicate is the conjunction of its two tests. *)
Lemma tmux_condition (o : OS) :
  truthy (py_and (environ_get o "TMUX") (VBool (has o "tmux")))
  = session_active o && has o "tmux".
Proof.
  unfold py_and, session_active.
  by destruct (truthy (environ_get o "TMUX")) eqn:Hs; simpl.
Qed.

(** What the walk gives, as a function of the ten tests it can make. *)
Lemma recomputed_unfold (split : string) (o : OS) :
  recomputed split o =
  if session_active o && has o "tmux" then ["tmux"; "splitw"; split_flag split]
  else if has o "kitty" then ["kitty"; "-e"]
  else if has o "wezterm" then ["wezterm"; "start"; "--"]
  else if has o "alacritty" then ["alacritty"; "-e"]
  else if has o "konsole" then ["konsole"; "-e"]
  else if has o "gnome-terminal" then ["gnome-terminal"; "--"]
  else if has o "xfce4-terminal" then ["xfce4-terminal"; "-e"]
  else if has o "terminator" then ["terminator"; "-x"]
  else if has o "xterm" then ["xterm"; "-e"]
  else ["bash"; "-lc"].
Proof.
  unfold recomputed. simpl. rewrite tmux_condition.
  repeat (match goal with
          | |- context [if ?b then _ else _] => destruct b; simpl; try done
          end).
Qed.

(** X1.  When recomputation takes place, the command returned is that of
    the first row, in table order, whose predicate holds; it is the shell
    fallback exactly when no row's predicate holds. *)
Theorem get_terminal_first_match (split : string) (force : bool) (st : State)
    (c : list string) :
  recomputes force st ->
  get_terminal split force st = (Ret c, st) <->
  (exists i row,
     TERMINALS (split_flag split) !! i = Some row /\ cmd row = c
     /\ truthy (condition row (os st)) = true
     /\ forall j r, j < i -> TERMINALS (split_flag split) !! j = Some r ->
                    truthy (condition r (os st)) = false)
  \/ (c = ["bash"; "-lc"]
      /\ forall row, row ∈ TERMINALS (split_flag split) ->
                     truthy (condition row (os st)) = false).
Proof.
  intros Hre. rewrite get_terminal_recomputed by done. unfold recomputed.
  destruct (first_available (os st) (TERMINALS (split_flag split)))
    as [c0|] eqn:Hf; simpl.
  - split.
    + intros [= <-]. left. by apply first_available_Some.
    + intros [Hex | [_ Hall]].
      * apply first_available_Some in Hex. congruence.
      * apply first_available_None in Hall. congruence.
  - split.
    + intros [= <-]. right. split; [done|]. by apply first_available_None.
    + intros [Hex | [-> _]]; [|done].
      apply first_available_Some in Hex. congruence.
Qed.

(** X2.  When recomputation takes place, the tmux split command is the
    result exactly when [TMUX] is set to a non-empty value and [tmux] is on
    the search path: tmux installed but no session, or a session variable
    left over without the executable, never gives it. *)
Theorem get_terminal_tmux_iff (split : string) (force : bool) (st : State) :
  recomputes force st ->
  get_terminal split force st = (Ret ["tmux"; "splitw"; split_flag split], st)
  <-> session_active (os st) = true /\ has (os st) "tmux" = true.
Proof.
  intros Hre. rewrite get_terminal_recomputed by done.
  rewrite recomputed_unfold.
  destruct (session_active (os st)), (has (os st) "tmux"); simpl;
    try (split; [done | intros [? ?]; done]).
  all: split; [|intros [? ?]; done].
  all: repeat (match goal with
               | |- context [if ?b then _ else _] => destruct b
               end); intros [=].
Qed.

(** X3.  When recomputation takes place, the shell fallback is the result
    exactly when the tmux row is off (no session or no executable) and none
    of the eight emulators is on the search path. *)
Theorem get_terminal_fallback_iff (split : string) (force : bool) (st : State) :
  recomputes force st ->
  get_terminal split force st = (Ret ["bash"; "-lc"], st)
  <-> (session_active (os st) = false \/ has (os st) "tmux" = false)
      /\ forall n, n ∈ emulators -> has (os st) n = false.
Proof.
  intros Hre. rewrite get_terminal_recomputed by done.
  rewrite recomputed_unfold. split.
  - intros Heq. split.
    + destruct (session_active (os st)); [|by left].
      destruct (has (os st) "tmux"); [done | by right].
    + intros n Hn. unfold emulators in Hn. simpl in Hn.
      destruct (session_active (os st) && has (os st) "tmux"); [done|].
      repeat (match type of Heq with
              | context [if ?b then _ else _] =>
                  destruct b eqn:?; [discriminate Heq|]
              end).
      repeat (apply elem_of_cons in Hn as [-> | Hn]; [done|]).
      by apply elem_of_nil in Hn.
  - intros [Htmux Hall].
    assert (session_active (os st) && has (os st) "tmux" = false) as ->.
    { destruct Htmux as [-> | ->]; [done | apply andb_false_r]. }
    unfold emulators in Hall. simpl in Hall.
    rewrite !Hall; [done | by repeat constructor..].
Qed.

(** X4.  The recomputed command depends on the process only through ten
    tests: whether [TMUX] is non-empty and whether each of the nine program
    names resolves.  The paths they resolve to, the other environment
    variables, the command line, the flags and the cache play no part. *)
Theorem get_terminal_reads_availability_only (split : string)
    (force force' : bool) (st st' : State) :
  recomputes force st -> recomputes force' st' ->
  session_active (os st) = session_active (os st') ->
  (forall n, n ∈ "tmux" :: emulators -> has (os st) n = has (os st') n) ->
  (get_terminal split force st).1 = (get_terminal split force' st').1.
Proof.
  intros Hre Hre' Hs Hhas. rewrite !get_terminal_recomputed by done. simpl.
  rewrite !recomputed_unfold, Hs.
  unfold emulators in Hhas. simpl in Hhas.
  rewrite !(Hhas "tmux"), !(Hhas "kitty"), !(Hhas "wezterm"),
    !(Hhas "alacritty"), !(Hhas "konsole"), !(Hhas "gnome-terminal"),
    !(Hhas "xfce4-terminal"), !(Hhas "terminator"), !(Hhas "xterm");
    [done | by repeat constructor..].
Qed.

(** The module-level assignment stores what the default call returned. *)
Lemma module_init_unfold (st : State) :
  exists c,
    get_terminal "horizontal" false st = (Ret c, st) /\ c ≠ []
    /\ module_init st
       = (Ret tt,
          {| context := {| terminal := c; binary := binary (context st) |};
             os := os st; world := world st |}).
Proof.
  destruct (get_terminal_returns "horizontal" false st) as (c & Hc & Hne).
  exists c. split; [done|]. split; [done|].
  unfold module_init, bind. by rewrite Hc.
Qed.

(** X5.  After the module-level assignment the cache is never empty.
    Running the assignment a second time changes nothing, and a terminal
    already configured before the first run is kept as it is. *)
Theorem module_init_idempotent (st : State) :
  terminal (context (module_init st).2) ≠ []
  /\ module_init (module_init st).2 = (Ret tt, (module_init st).2)
  /\ (terminal (context st) ≠ [] -> module_init st = (Ret tt, st)).
Proof.
  destruct (module_init_unfold st) as (c & Hc & Hne & Hinit).
  assert (forall s, terminal (context s) ≠ [] -> module_init s = (Ret tt, s))
    as Hkeep.
  { intros s Hs. destruct (module_init_unfold s) as (c' & Hc' & _ & ->).
    rewrite get_terminal_cached in Hc' by done. injection Hc' as <-.
    by destruct s as [[t b] o w]. }
  split; [by rewrite Hinit|]. split; [|by apply Hkeep].
  apply Hkeep. by rewrite Hinit.
Qed.

(** X6.  The orientation is fixed when the module is loaded.  With nothing
    cached, a session active and [tmux] found at load time, every later
    unforced call returns the horizontal split, whatever orientation it
    asks for and whatever became of the environment. *)
Theorem orientation_fixed_at_load (split : string) (st : State) (o' : OS) :
  terminal (context st) = [] ->
  session_active (os st) = true -> has (os st) "tmux" = true ->
  get_terminal split false (with_os (module_init st).2 o')
  = (Ret ["tmux"; "splitw"; "-h"], with_os (module_init st).2 o').
Proof.
  intros Hempty Hs Ht.
  destruct (module_init_unfold st) as (c & Hc & Hne & Hinit).
  rewrite get_terminal_recomputed in Hc by (by right).
  rewrite recomputed_tmux in Hc by done. injection Hc as <-.
  rewrite Hinit. simpl. by rewrite get_terminal_cached.
Qed.

End GetTerminalMore.

(** * Further properties of ELF and start *)

Section LaunchMore.
Context {L : PwnLib}.

(** [start] as one case analysis on the flags and the command line. *)
Lemma start_unfold (elf : Elf) (kwargs : gmap string PyVal) (st : State) :
  start elf kwargs st =
  if GDB (args (os st)) && truthy (dict_get kwargs "gdbscript") then
    delegated Debugged (gdb_debug (path elf) (dict_get kwargs "gdbscript")) st
  else if REMOTE (args (os st)) then
    match argv (os st) !! 1, argv (os st) !! 2 with
    | Some host, Some port => delegated Connected (remote host port) st
    | _, _ => (Raise IndexError, st)
    end
  else delegated Spawned (process (path elf)) st.
Proof.
  destruct (GDB (args (os st)) && truthy (dict_get kwargs "gdbscript")) eqn:Hg.
  - apply andb_true_iff in Hg as [Hg Hs]. by apply start_gdb.
  - destruct (REMOTE (args (os st))) eqn:Hr; [|by apply start_process].
    destruct (argv (os st) !! 1) as [host|] eqn:Hh;
      [destruct (argv (os st) !! 2) as [port|] eqn:Hp|].
    + by apply start_remote.
    + apply start_remote_short; [done..|]. apply lookup_ge_None in Hp. lia.
    + apply start_remote_short; [done..|]. apply lookup_ge_None in Hh. lia.
Qed.

(** A delegation never raises the interpreter's own exception. *)
Lemma delegated_not_local {A B} (wrap : A -> B)
    (prim : World -> (LibError + A) * World) (st st' : State) :
  delegated wrap prim st ≠ (Raise IndexError, st').
Proof.
  intros (le & w & Hle & _)%delegated_raise. discriminate.
Qed.

(** The outcome of a delegation and the world it leaves depend on the
    state through the library's world only. *)
Lemma delegated_world {A B} (wrap : A -> B)
    (prim : World -> (LibError + A) * World) (st st' : State) :
  world st = world st' ->
  (delegated wrap prim st).1 = (delegated wrap prim st').1
  /\ world (delegated wrap prim st).2 = world (delegated wrap prim st').2.
Proof.
  unfold delegated. intros ->.
  by destruct (prim (world st')) as [[e | a] w].
Qed.

(** X7.  Of all keyword options, [start] reads [gdbscript] only: two calls
    whose options agree on it do the same, whatever else is passed.  With
    the debug flag off the options play no part at all. *)
Theorem start_reads_gdbscript_only (elf : Elf) (kwargs kwargs' : gmap string PyVal)
    (st : State) :
  (kwargs !! "gdbscript" = kwargs' !! "gdbscript" ->
   start elf kwargs st = start elf kwargs' st)
  /\ (GDB (args (os st)) = false ->
      start elf kwargs st = start elf kwargs' st).
Proof.
  split.
  - intros Hsame. rewrite !start_unfold. unfold dict_get. by rewrite Hsame.
  - intros Hoff. rewrite !start_unfold. by rewrite Hoff.
Qed.

(** X8.  Of the binary handle, [start] reads the path only, and in the
    remote branch not even that: there the call is the same for every
    handle. *)
Theorem start_reads_path_only (elf elf' : Elf) (kwargs : gmap string PyVal)
    (st : State) :
  (path elf = path elf' -> start elf kwargs st = start elf' kwargs st)
  /\ (GDB (args (os st)) && truthy (dict_get kwargs "gdbscript") = false ->
      REMOTE (args (os st)) = true ->
      start elf kwargs st = start elf' kwargs st).
Proof.
  split.
  - intros Hp. rewrite !start_unfold. by rewrite Hp.
  - intros Hg Hr. rewrite !start_unfold. by rewrite Hg, Hr.
Qed.

(** X9.  [start] raises [IndexError] exactly when the remote branch is
    taken with fewer than three entries on the command line; the state is
    then untouched.  A host without a port is no better than nothing. *)
Theorem start_index_error_iff (elf : Elf) (kwargs : gmap string PyVal)
    (st st' : State) :
  start elf kwargs st = (Raise IndexError, st')
  <-> st' = st
      /\ GDB (args (os st)) && truthy (dict_get kwargs "gdbscript") = false
      /\ REMOTE (args (os st)) = true
      /\ length (argv (os st)) < 3.
Proof.
  split.
  - rewrite start_unfold.
    destruct (GDB (args (os st)) && truthy (dict_get kwargs "gdbscript"));
      [by intros ?%delegated_not_local|].
    destruct (REMOTE (args (os st))); [|by intros ?%delegated_not_local].
    destruct (argv (os st) !! 1) as [host|] eqn:Hh;
      [destruct (argv (os st) !! 2) as [port|] eqn:Hp|].
    + by intros ?%delegated_not_local.
    + intros [= <-]. apply lookup_ge_None in Hp. repeat split; lia.
    + intros [= <-]. apply lookup_ge_None in Hh. repeat split; lia.
  - intros (-> & Hg & Hr & Hlen). by apply start_remote_short.
Qed.

(** X10.  Of the process, [start] reads the two flags and the entries 1 and
    2 of the command line, nothing else: the program name, further
    arguments, the environment and the search path do not change what it
    returns or what it asks of the library. *)
Theorem start_reads_flags_and_argv_only (elf : Elf) (kwargs : gmap string PyVal)
    (st st' : State) :
  world st = world st' ->
  args (os st) = args (os st') ->
  argv (os st) !! 1 = argv (os st') !! 1 ->
  argv (os st) !! 2 = argv (os st') !! 2 ->
  (start elf kwargs st).1 = (start elf kwargs st').1
  /\ world (start elf kwargs st).2 = world (start elf kwargs st').2.
Proof.
  intros Hw Ha H1 H2. rewrite !start_unfold, Ha, H1, H2.
  destruct (GDB (args (os st')) && truthy (dict_get kwargs "gdbscript"));
    [by apply delegated_world|].
  destruct (REMOTE (args (os st'))); [|by apply delegated_world].
  destruct (argv (os st') !! 1) as [host|]; [|done].
  destruct (argv (os st') !! 2) as [port|]; [|done].
  by apply delegated_world.
Qed.

(** X11.  Two loads in a row: when both succeed the current binary is the
    second handle; when the second is refused its error is raised and the
    first handle stays the current binary. *)
Theorem ELF_last_load_wins (p1 p2 : string) (a1 a2 : list PyVal)
    (k1 k2 : gmap string PyVal) (st : State) (e1 : Elf) (w1 : World) :
  _ELF p1 a1 k1 (world st) = (inr e1, w1) ->
  (forall e2 w2,
     _ELF p2 a2 k2 w1 = (inr e2, w2) ->
     bind (ELF p1 a1 k1) (fun _ => ELF p2 a2 k2) st
     = (Ret e2,
        {| context := {| terminal := terminal (context st); binary := Some e2 |};
           os := os st; world := w2 |}))
  /\ (forall err w2,
        _ELF p2 a2 k2 w1 = (inl err, w2) ->
        bind (ELF p1 a1 k1) (fun _ => ELF p2 a2 k2) st
        = (Raise (Propagated err),
           {| context := {| terminal := terminal (context st); binary := Some e1 |};
              os := os st; world := w2 |})).
Proof.
  intros H1.
  split; intros ? w2 H2; unfold bind; rewrite ELF_unfold, H1;
    cbn beta iota; rewrite ELF_unfold; simpl; by rewrite H2.
Qed.

(** X12.  Load, then launch.  A refused load ends the script with the
    loader's error before anything is launched.  After a load that
    succeeded the launch runs on the world the loader left, and the handle
    stays the current binary whether the launch succeeds or not. *)
Theorem load_then_start (p : string) (a : list PyVal)
    (k kwargs : gmap string PyVal) (st : State) :
  (forall e w,
     _ELF p a k (world st) = (inl e, w) ->
     bind (ELF p a k) (fun elf => start elf kwargs) st
     = (Raise (Propagated e),
        {| context := context st; os := os st; world := w |}))
  /\ (forall elf w,
        _ELF p a k (world st) = (inr elf, w) ->
        bind (ELF p a k) (fun elf => start elf kwargs) st
        = start elf kwargs
            {| context := {| terminal := terminal (context st);
                             binary := Some elf |};
               os := os st; world := w |}
        /\ binary (context (bind (ELF p a k) (fun elf => start elf kwargs) st).2)
           = Some elf).
Proof.
  split.
  - intros e w Hload. unfold bind. by rewrite ELF_unfold, Hload.
  - intros elf w Hload.
    assert (bind (ELF p a k) (fun elf => start elf kwargs) st
            = start elf kwargs
                {| context := {| terminal := terminal (context st);
                                 binary := Some elf |};
                   os := os st; world := w |}) as Heq
      by (unfold bind; by rewrite ELF_unfold, Hload).
    split; [done|]. rewrite Heq. by rewrite start_frame.
Qed.

End LaunchMore.

(** * The module's namespace *)

Section NamespaceFacts.
Import Namespace.

Lemma elem_of_keys_assign (n k : string) (v : Binding) (g : Globals) :
  n ∈ keys (assign k v g) <-> n = k \/ n ∈ keys g.
Proof.
  induction g as [|[k' v'] rest IH]; simpl.
  - rewrite list_elem_of_singleton, elem_of_nil. tauto.
  - destruct (String.eqb_spec k k') as [<- | Hne]; simpl.
    + rewrite !elem_of_cons. tauto.
    + rewrite !elem_of_cons, IH. tauto.
Qed.

(** Binding a name never makes a key appear twice. *)
Lemma NoDup_keys_assign (k : string) (v : Binding) (g : Globals) :
  NoDup (keys g) -> NoDup (keys (assign k v g)).
Proof.
  induction g as [|[k' v'] rest IH]; simpl.
  - intros _. apply NoDup_singleton.
  - intros [Hnotin Hrest]%NoDup_cons.
    destruct (String.eqb_spec k k') as [<- | Hne]; simpl.
    + by apply NoDup_cons.
    + apply NoDup_cons. split; [|by apply IH].
      rewrite elem_of_keys_assign. intros [-> | Hin]; done.
Qed.

Lemma lookup_assign_eq (k : string) (v : Binding) (g : Globals) :
  lookup k (assign k v g) = Some v.
Proof.
  induction g as [|[k' v'] rest IH]; simpl.
  - by rewrite String.eqb_refl.
  - destruct (String.eqb_spec k k') as [<- | Hne]; simpl.
    + by rewrite String.eqb_refl.
    + by destruct (String.eqb_spec k k').
Qed.

Lemma lookup_assign_ne (k n : string) (v : Binding) (g : Globals) :
  n ≠ k -> lookup n (assign k v g) = lookup n g.
Proof.
  intros Hne. induction g as [|[k' v'] rest IH]; simpl.
  - by destruct (String.eqb_spec n k).
  - destruct (String.eqb_spec k k') as [<- | Hkk]; simpl.
    + by destruct (String.eqb_spec n k).
    + by rewrite IH.
Qed.

Lemma lookup_None_keys (n : string) (g : Globals) :
  lookup n g = None <-> n ∉ keys g.
Proof.
  induction g as [|[k' v'] rest IH]; simpl.
  - split; [intros _; apply not_elem_of_nil | done].
  - rewrite not_elem_of_cons.
    destruct (String.eqb_spec n k') as [-> | Hne]; [|rewrite IH]; [|tauto].
    split; [done | by intros [? _]].
Qed.

Lemma elem_of_keys_import_star (n m : string) (names : list string)
    (g : Globals) :
  n ∈ keys (import_star m names g) <-> n ∈ names \/ n ∈ keys g.
Proof.
  unfold import_star. revert g.
  induction names as [|x rest IH]; intros g; simpl.
  - split; [by right | by intros [?%elem_of_nil | ?]].
  - rewrite IH, elem_of_keys_assign, elem_of_cons. tauto.
Qed.

Lemma NoDup_keys_import_star (m : string) (names : list string) (g : Globals) :
  NoDup (keys g) -> NoDup (keys (import_star m names g)).
Proof.
  unfold import_star. revert g.
  induction names as [|x rest IH]; intros g Hg; simpl; [done|].
  apply IH. by apply NoDup_keys_assign.
Qed.

Lemma lookup_import_star_notin (n m : string) (names : list string)
    (g : Globals) :
  n ∉ names -> lookup n (import_star m names g) = lookup n g.
Proof.
  unfold import_star. revert g.
  induction names as [|x rest IH]; intros g Hn; simpl; [done|].
  apply not_elem_of_cons in Hn as [Hx Hrest].
  rewrite IH by done. by apply lookup_assign_ne.
Qed.

Lemma lookup_import_star_in (n m : string) (names : list string)
    (g : Globals) :
  n ∈ names -> lookup n (import_star m names g) = Some (Attr m n).
Proof.
  revert g. induction names as [|x rest IH]; intros g Hn.
  - by apply elem_of_nil in Hn.
  - destruct (decide (n ∈ rest)) as [Hin | Hnotin].
    + by apply (IH (assign x (Attr m x) g)).
    + apply elem_of_cons in Hn as [-> | Hin]; [|done].
      change (import_star m (x :: rest) g)
        with (import_star m rest (assign x (Attr m x) g)).
      rewrite lookup_import_star_notin by done. apply lookup_assign_eq.
Qed.

(** The keys of the dict the last statement reads. *)
Lemma elem_of_keys_module_globals (n : string) (g0 : Globals)
    (pwn_names : list string) :
  n ∈ keys (module_globals g0 pwn_names)
  <-> n ∈ own_names \/ n ∈ pwn_names \/ n ∈ keys g0.
Proof.
  unfold module_globals, own_names.
  rewrite !elem_of_keys_assign, elem_of_keys_import_star, !elem_of_cons,
    elem_of_nil.
  tauto.
Qed.

(** A name the later statements do not bind is as the star import left it. *)
Lemma lookup_module_globals_other (n : string) (g0 : Globals)
    (pwn_names : list string) :
  n ∉ own_names ->
  lookup n (module_globals g0 pwn_names)
  = lookup n (import_star "pwn" pwn_names g0).
Proof.
  unfold own_names, module_globals. rewrite !not_elem_of_cons.
  intros (? & ? & ? & ? & ? & ? & _).
  by rewrite !lookup_assign_ne.
Qed.

(** X13.  A name is exported exactly when it does not start with an
    underscore and is bound when the last statement runs: it was in the
    dict from the start, came with the star import, or is one of [os],
    [shutil], [get_terminal], [ELF], [start].  The two imported modules are
    exported along with the functions; the aliased loader [_ELF] is not. *)
Theorem all_exports_iff (n : string) (g0 : Globals) (pwn_names : list string) :
  n ∈ __all__ g0 pwn_names
  <-> startswith n "_" = false
      /\ (n ∈ keys g0 \/ n ∈ pwn_names
          \/ n ∈ ["os"; "shutil"; "get_terminal"; "ELF"; "start"]).
Proof.
  unfold __all__. rewrite list_elem_of_filter, elem_of_keys_module_globals.
  unfold own_names. rewrite !elem_of_cons, !elem_of_nil.
  destruct (startswith n "_") eqn:Hs; simpl.
  - split; [intros [Hno _]; by destruct Hno | by intros [? _]].
  - split.
    + intros [_ Hin]. split; [done|].
      destruct Hin as [[-> | Hown] | [? | ?]]; [done | tauto..].
    + intros [_ Hin]. split; [by intros []|]. tauto.
Qed.

(** X14.  When the dict the body starts with has no key twice, no name is
    exported twice, even if the star import brings a name several times or
    brings one that the file binds again. *)
Theorem all_exports_NoDup (g0 : Globals) (pwn_names : list string) :
  NoDup (keys g0) -> NoDup (__all__ g0 pwn_names).
Proof.
  intros Hg0. unfold __all__. apply NoDup_filter.
  unfold module_globals.
  repeat apply NoDup_keys_assign. by apply NoDup_keys_import_star.
Qed.

(** X15.  Whatever the star import brings, once the body has run [ELF]
    names the wrapper defined in the file and [_ELF] names the library's
    loader, so the wrapper calls the loader and not itself; [ELF] is
    exported and [_ELF] is not. *)
Theorem ELF_names_the_wrapper (g0 : Globals) (pwn_names : list string) :
  lookup "ELF" (module_globals g0 pwn_names) = Some (Def "ELF")
  /\ lookup "_ELF" (module_globals g0 pwn_names)
     = Some (Attr "pwnlib.elf.elf" "ELF")
  /\ "ELF" ∈ __all__ g0 pwn_names
  /\ "_ELF" ∉ __all__ g0 pwn_names.
Proof.
  split; [|split; [|split]].
  - unfold module_globals.
    rewrite lookup_assign_ne by done. apply lookup_assign_eq.
  - unfold module_globals.
    rewrite !lookup_assign_ne by done. apply lookup_assign_eq.
  - unfold __all__. apply list_elem_of_filter. split; [by intros []|].
    apply elem_of_keys_module_globals. left. unfold own_names.
    by repeat constructor.
  - unfold __all__. rewrite list_elem_of_filter. intros [Hno _].
    by apply Hno.
Qed.

(** X16.  The names the function bodies read without the file binding them
    ([context], [args], [gdb], [remote], [process], [sys]) are bound after
    the body has run only as far as the star import, or the dict the body
    started with, provides them: brought by the star, such a name is the
    library's object; brought by neither, it is unbound. *)
Theorem borrowed_names_from_star (n : string) (g0 : Globals)
    (pwn_names : list string) :
  n ∈ borrowed_names ->
  (n ∈ pwn_names ->
   lookup n (module_globals g0 pwn_names) = Some (Attr "pwn" n))
  /\ (n ∉ pwn_names ->
      lookup n (module_globals g0 pwn_names) = lookup n g0)
  /\ (n ∉ pwn_names -> n ∉ keys g0 ->
      lookup n (module_globals g0 pwn_names) = None).
Proof.
  intros Hn.
  assert (n ∉ own_names) as Hother.
  { unfold borrowed_names in Hn. unfold own_names.
    repeat (apply elem_of_cons in Hn as [-> | Hn];
            [by apply (bool_decide_unpack _)|]).
    by apply elem_of_nil in Hn. }
  rewrite lookup_module_globals_other by done.
  split; [|split].
  - intros Hin. by apply lookup_import_star_in.
  - intros Hnotin. by apply lookup_import_star_notin.
  - intros Hnotin Hkeys. rewrite lookup_import_star_notin by done.
    by apply lookup_None_keys.
Qed.

End NamespaceFacts.

(** * The further properties on concrete runs *)

Section MoreRuns.
Import Mock Samples Namespace.

(** X1 on a desktop with xterm only: the row found is the last one and the
    eight rows before it are off. *)
Lemma get_terminal_first_match_witness :
  exists i row,
    TERMINALS "-h" !! i = Some row /\ cmd row = ["xterm"; "-e"]
    /\ truthy (condition row desktop) = true
    /\ forall j r, j < i -> TERMINALS "-h" !! j = Some r ->
                   truthy (condition r desktop) = false.
Proof.
  destruct (get_terminal_first_match "horizontal" false (fresh desktop)
              ["xterm"; "-e"]) as [Hfound _]; [right; reflexivity|].
  destruct (Hfound eq_refl) as [Hex | [Hfb _]]; [exact Hex | discriminate].
Defined.

(** X2: inside a session tmux is the answer; with tmux installed and no
    session it is not. *)
Lemma get_terminal_tmux_iff_witness :
  get_terminal "vertical" true (cached ["foo"] in_tmux)
  = (Ret ["tmux"; "splitw"; "-v"], cached ["foo"] in_tmux)
  /\ get_terminal "vertical" false (fresh tmux_no_session)
     ≠ (Ret ["tmux"; "splitw"; "-v"], fresh tmux_no_session).
Proof.
  split.
  - apply (get_terminal_tmux_iff "vertical" true (cached ["foo"] in_tmux));
      [by left | split; reflexivity].
  - intros Heq.
    apply (get_terminal_tmux_iff "vertical" false (fresh tmux_no_session))
      in Heq as [Hs _]; [discriminate | right; reflexivity].
Defined.

(** X3 on a bare container, and on a desktop where xterm is found. *)
Lemma get_terminal_fallback_iff_witness :
  get_terminal "horizontal" false (fresh bare) = (Ret ["bash"; "-lc"], fresh bare)
  /\ get_terminal "horizontal" false (fresh desktop)
     ≠ (Ret ["bash"; "-lc"], fresh desktop).
Proof.
  split.
  - apply (get_terminal_fallback_iff "horizontal" false (fresh bare));
      [right; reflexivity|].
    split; [by left|]. intros n _. reflexivity.
  - intros Heq.
    apply (get_terminal_fallback_iff "horizontal" false (fresh desktop))
      in Heq as [_ Hnone]; [|right; reflexivity].
    specialize (Hnone "xterm"). unfold emulators in Hnone. simpl in Hnone.
    discriminate Hnone. by repeat constructor.
Defined.

(** X4: two desktops that differ in everything but what is found. *)
Lemma get_terminal_reads_availability_only_witness :
  (get_terminal "vertical" false (fresh desktop)).1
  = (get_terminal "vertical" true (cached ["foo"] other_desktop)).1.
Proof.
  apply (get_terminal_reads_availability_only "vertical" false true
           (fresh desktop) (cached ["foo"] other_desktop)).
  - right. reflexivity.
  - left. reflexivity.
  - reflexivity.
  - intros n Hn. unfold emulators in Hn. simpl in Hn.
    repeat (apply elem_of_cons in Hn as [-> | Hn]; [reflexivity|]).
    by apply elem_of_nil in Hn.
Defined.

(** X5: a terminal configured before the module is loaded survives. *)
Lemma module_init_idempotent_witness :
  module_init (cached ["st"; "-e"] in_tmux) = (Ret tt, cached ["st"; "-e"] in_tmux).
Proof.
  destruct (module_init_idempotent (cached ["st"; "-e"] in_tmux))
    as (_ & _ & Hkeep).
  apply Hkeep. discriminate.
Defined.

(** X6: loaded inside tmux, asked for a vertical split on a machine that
    has since lost everything. *)
Lemma orientation_fixed_at_load_witness :
  get_terminal "vertical" false (with_os (module_init (fresh in_tmux)).2 bare)
  = (Ret ["tmux"; "splitw"; "-h"], with_os (module_init (fresh in_tmux)).2 bare).
Proof.
  apply (orientation_fixed_at_load "vertical" (fresh in_tmux) bare);
    reflexivity.
Defined.

(** X7: an [env] option beside the script changes nothing. *)
Lemma start_reads_gdbscript_only_witness :
  start ls {[ "gdbscript" := VStr "b main"; "env" := VStr "LD_PRELOAD=./libc.so" ]}
    (fresh (flagged true false ["exploit.py"]))
  = start ls {[ "gdbscript" := VStr "b main" ]}
      (fresh (flagged true false ["exploit.py"]))
  /\ start ls {[ "gdbscript" := VStr "b main" ]}
       (fresh (flagged false false ["exploit.py"]))
     = start ls ∅ (fresh (flagged false false ["exploit.py"])).
Proof.
  split.
  - destruct (start_reads_gdbscript_only ls
                {[ "gdbscript" := VStr "b main";
                   "env" := VStr "LD_PRELOAD=./libc.so" ]}
                {[ "gdbscript" := VStr "b main" ]}
                (fresh (flagged true false ["exploit.py"]))) as (Hsame & _).
    apply Hsame. reflexivity.
  - destruct (start_reads_gdbscript_only ls {[ "gdbscript" := VStr "b main" ]} ∅
                (fresh (flagged false false ["exploit.py"]))) as (_ & Hoff).
    apply Hoff. reflexivity.
Defined.

(** X8: two handles on the same path, and two unrelated ones in remote
    mode. *)
Lemma start_reads_path_only_witness :
  start ls ∅ (fresh bare)
  = start (Load "/bin/ls" [VStr "checksec"] ∅ : @Elf lib) ∅ (fresh bare)
  /\ start ls ∅ (fresh remote_run)
     = start (Load "/bin/cat" [] ∅ : @Elf lib) ∅ (fresh remote_run).
Proof.
  split.
  - destruct (start_reads_path_only ls
                (Load "/bin/ls" [VStr "checksec"] ∅ : @Elf lib) ∅ (fresh bare))
      as (Hpath & _).
    apply Hpath. reflexivity.
  - destruct (start_reads_path_only ls (Load "/bin/cat" [] ∅ : @Elf lib) ∅
                (fresh remote_run)) as (_ & Hremote).
    apply Hremote; reflexivity.
Defined.

(** X9: a host without a port. *)
Lemma start_index_error_iff_witness :
  start ls ∅ (fresh (flagged false true ["exploit.py"; "10.0.0.7"]))
  = (Raise IndexError, fresh (flagged false true ["exploit.py"; "10.0.0.7"])).
Proof.
  apply (start_index_error_iff ls ∅).
  split; [reflexivity|]. split; [reflexivity|]. split; [reflexivity|].
  simpl. lia.
Defined.

(** X10: the same host and port under another program name, with one more
    argument and another environment. *)
Lemma start_reads_flags_and_argv_only_witness :
  (start ls ∅ (fresh remote_run)).1 = (start ls ∅ (fresh remote_run_noisy)).1
  /\ world (start ls ∅ (fresh remote_run)).2
     = world (start ls ∅ (fresh remote_run_noisy)).2.
Proof.
  apply (start_reads_flags_and_argv_only ls ∅ (fresh remote_run)
           (fresh remote_run_noisy)); reflexivity.
Defined.

(** X11: a second load that is refused leaves the first binary current. *)
Lemma ELF_last_load_wins_witness :
  bind (ELF "/bin/ls" [] ∅) (fun _ => ELF "" [] ∅) (fresh bare)
  = (Raise (Propagated "refused"),
     {| context := {| terminal := []; binary := Some ls |};
        os := bare; world := [Load "/bin/ls" [] ∅; Load "" [] ∅] |}).
Proof.
  destruct (ELF_last_load_wins "/bin/ls" "" [] [] ∅ ∅ (fresh bare)
              ls [Load "/bin/ls" [] ∅] eq_refl) as (_ & Hrefused).
  apply (Hrefused "refused"). reflexivity.
Defined.

(** X12: a refused load, with the debug flag set: nothing is launched. *)
Lemma load_then_start_witness :
  bind (ELF "" [] ∅) (fun elf => start elf {[ "gdbscript" := VStr "b main" ]})
    (fresh (flagged true false ["exploit.py"]))
  = (Raise (Propagated "refused"),
     {| context := {| terminal := []; binary := None |};
        os := flagged true false ["exploit.py"]; world := [Load "" [] ∅] |}).
Proof.
  destruct (load_then_start "" [] ∅ {[ "gdbscript" := VStr "b main" ]}
              (fresh (flagged true false ["exploit.py"]))) as (Hrefused & _).
  apply (Hrefused "refused"). reflexivity.
Defined.

(** X13: [shutil] is exported, [__name__] is not. *)
Lemma all_exports_iff_witness :
  "shutil" ∈ __all__ sample_preset sample_star
  /\ "__name__" ∉ __all__ sample_preset sample_star.
Proof.
  split.
  - apply (all_exports_iff "shutil" sample_preset sample_star).
    split; [reflexivity|]. right; right. by repeat constructor.
  - intros [Hpublic _]%(all_exports_iff "__name__" sample_preset sample_star).
    discriminate Hpublic.
Defined.

(** X14 with a star import that brings [os] twice and [ELF] once. *)
Lemma all_exports_NoDup_witness :
  NoDup (__all__ sample_preset ("os" :: sample_star)).
Proof.
  apply (all_exports_NoDup sample_preset ("os" :: sample_star)).
  apply (bool_decide_unpack _). reflexivity.
Defined.

(** X16 for [sys]: bound to the library's object when the star brings it,
    unbound when it does not. *)
Lemma borrowed_names_from_star_witness :
  lookup "sys" (module_globals sample_preset sample_star)
  = Some (Attr "pwn" "sys")
  /\ lookup "sys" (module_globals sample_preset ["ELF"; "context"]) = None.
Proof.
  split.
  - destruct (borrowed_names_from_star "sys" sample_preset sample_star)
      as (Hstar & _); [by repeat constructor|].
    apply Hstar. by repeat constructor.
  - destruct (borrowed_names_from_star "sys" sample_preset ["ELF"; "context"])
      as (_ & _ & Hunbound); [by repeat constructor|].
    apply Hunbound; by apply (bool_decide_unpack _).
Defined.

End MoreRuns.
